(** * ALVR: client render bindings and server settings

    A shallow embedding of the two C/C++ headers

      - [alvr/client_core/cpp/bindings.h]   (structs and entry points that
        cross the client's native boundary), and
      - [alvr/server/cpp/alvr_server/Settings.h]   (the process-wide
        settings object of the server),

    together with the properties the design document states about them.
    The frame scheduler, which the design document describes but whose code
    is in neither header, is modelled from the document and marked as
    such. *)

From Stdlib Require Import ZArith List Sorted String Bool Lia.
From Stdlib Require Import Floats.SpecFloat.
Import ListNotations.

Local Open Scope string_scope.
Local Open Scope Z_scope.

(* ===================================================================== *)
(** * Part I: definitions                                                 *)
(* ===================================================================== *)

(** ** C scalar and aggregate types, as the headers spell them *)

Inductive ctype : Type :=
| c_void
| c_bool
| c_uchar                       (* unsigned char *)
| c_int                         (* int *)
| c_uint                        (* unsigned int *)
| c_int32 | c_uint32            (* int32_t, uint32_t *)
| c_int64 | c_uint64            (* int64_t, uint64_t *)
| c_float
| c_double
| c_string                      (* std::string *)
| c_struct (name : string)
| c_const (t : ctype)
| c_ptr (t : ctype)
| c_ref (t : ctype)                (* T & *)
| c_array (t : ctype) (n : nat).

Fixpoint ctype_eqb (a b : ctype) : bool :=
  match a, b with
  | c_void, c_void | c_bool, c_bool | c_uchar, c_uchar
  | c_int, c_int | c_uint, c_uint
  | c_int32, c_int32 | c_uint32, c_uint32
  | c_int64, c_int64 | c_uint64, c_uint64
  | c_float, c_float | c_double, c_double | c_string, c_string => true
  | c_struct n, c_struct m => String.eqb n m
  | c_const t, c_const u => ctype_eqb t u
  | c_ptr t, c_ptr u => ctype_eqb t u
  | c_ref t, c_ref u => ctype_eqb t u
  | c_array t n, c_array u m => ctype_eqb t u && Nat.eqb n m
  | _, _ => false
  end.

(** A data member: its name and declared type. *)
Definition field_decl : Type := (string * ctype)%type.

(** An [extern "C"] function declaration. *)
Record fn_decl : Type := mk_fn {
  fn_name   : string;
  fn_params : list field_decl;
  fn_ret    : ctype
}.

(** The value range of an integer type; every other type is unconstrained. *)
Definition int_range (t : ctype) : option (Z * Z) :=
  match t with
  | c_uchar  => Some (0, 2 ^ 8 - 1)
  | c_int | c_int32 => Some (- 2 ^ 31, 2 ^ 31 - 1)
  | c_uint | c_uint32 => Some (0, 2 ^ 32 - 1)
  | c_int64  => Some (- 2 ^ 63, 2 ^ 63 - 1)
  | c_uint64 => Some (0, 2 ^ 64 - 1)
  | _ => None
  end.

Definition in_range (t : ctype) (v : Z) : Prop :=
  match int_range t with
  | Some (lo, hi) => lo <= v <= hi
  | None => True
  end.

(** IEEE-754 values.  [float] is binary32, [double] is binary64; both are
    carried as [spec_float], with the format as a separate validity check. *)
Definition float : Type := spec_float.
Definition double : Type := spec_float.
Definition valid_float (f : float) : bool := valid_binary 24 128 f.
Definition valid_double (f : double) : bool := valid_binary 53 1024 f.

Definition float_zero : float := S754_zero false.
Definition float_one : float := S754_finite false 8388608 (-23).
Definition float_half : float := S754_finite false 8388608 (-24).

(** A fixed-size C array [A x[n]]: exactly [n] elements. *)
Fixpoint array (A : Type) (n : nat) : Type :=
  match n with
  | O => unit
  | S k => (A * array A k)%type
  end.

Fixpoint array_to_list {A : Type} {n : nat} : array A n -> list A :=
  match n with
  | O => fun _ => []
  | S k => fun a => fst a :: array_to_list (snd a)
  end.

(* --------------------------------------------------------------------- *)
(** ** bindings.h                                                         *)
(* --------------------------------------------------------------------- *)

Record EyeInput : Type := mk_EyeInput {
  orientation : array float 4;   (* x, y, z, w *)
  position    : array float 3;
  fovLeft     : float;
  fovRight    : float;
  fovTop      : float;
  fovBottom   : float
}.

Record OnCreateResult : Type := mk_OnCreateResult {
  streamSurfaceHandle  : Z;
  loadingSurfaceHandle : Z
}.

Record StreamConfigInput : Type := mk_StreamConfigInput {
  viewWidth             : Z;     (* unsigned int *)
  viewHeight            : Z;     (* unsigned int *)
  enableFoveation       : bool;
  foveationCenterSizeX  : float;
  foveationCenterSizeY  : float;
  foveationCenterShiftX : float;
  foveationCenterShiftY : float;
  foveationEdgeRatioX   : float;
  foveationEdgeRatioY   : float
}.

(** The same three structs as declaration tables: member names and declared
    types, in declaration order. *)
Definition EyeInput_fields : list field_decl :=
  [ ("orientation", c_array c_float 4);
    ("position",    c_array c_float 3);
    ("fovLeft",     c_float);
    ("fovRight",    c_float);
    ("fovTop",      c_float);
    ("fovBottom",   c_float) ].

Definition OnCreateResult_fields : list field_decl :=
  [ ("streamSurfaceHandle",  c_int);
    ("loadingSurfaceHandle", c_int) ].

Definition StreamConfigInput_fields : list field_decl :=
  [ ("viewWidth",             c_uint);
    ("viewHeight",            c_uint);
    ("enableFoveation",       c_bool);
    ("foveationCenterSizeX",  c_float);
    ("foveationCenterSizeY",  c_float);
    ("foveationCenterShiftX", c_float);
    ("foveationCenterShiftY", c_float);
    ("foveationEdgeRatioX",   c_float);
    ("foveationEdgeRatioY",   c_float) ].

(** The [extern "C"] objects of the [gltf_model.h] block. *)
Definition gltf_model_h : list field_decl :=
  [ ("LOBBY_ROOM_GLTF_PTR", c_ptr (c_const c_uchar));
    ("LOBBY_ROOM_GLTF_LEN", c_uint);
    ("LOBBY_ROOM_BIN_PTR",  c_ptr (c_const c_uchar));
    ("LOBBY_ROOM_BIN_LEN",  c_uint) ].

(** The [extern "C"] entry points of the [graphics.h] block. *)
Definition initGraphicsNative_decl : fn_decl :=
  mk_fn "initGraphicsNative" [] c_void.
Definition destroyGraphicsNative_decl : fn_decl :=
  mk_fn "destroyGraphicsNative" [] c_void.
Definition prepareLobbyRoom_decl : fn_decl :=
  mk_fn "prepareLobbyRoom"
        [ ("viewWidth", c_int); ("viewHeight", c_int);
          ("swapchainTextures", c_array (c_ptr (c_const c_int)) 2);
          ("swapchainLength", c_int) ]
        c_void.
Definition destroyRenderers_decl : fn_decl :=
  mk_fn "destroyRenderers" [] c_void.
Definition setStreamConfig_decl : fn_decl :=
  mk_fn "setStreamConfig" [ ("config", c_struct "StreamConfigInput") ] c_void.
Definition streamStartNative_decl : fn_decl :=
  mk_fn "streamStartNative"
        [ ("swapchainTextures", c_array (c_ptr (c_const c_int)) 2);
          ("swapchainLength", c_int) ]
        c_void.
Definition updateLobbyHudTexture_decl : fn_decl :=
  mk_fn "updateLobbyHudTexture" [ ("data", c_ptr (c_const c_uchar)) ] c_void.
Definition renderLobbyNative_decl : fn_decl :=
  mk_fn "renderLobbyNative"
        [ ("eyeInputs", c_array (c_const (c_struct "EyeInput")) 2);
          ("swapchainIndices", c_array (c_const c_int) 2) ]
        c_void.
Definition renderStreamNative_decl : fn_decl :=
  mk_fn "renderStreamNative"
        [ ("streamHardwareBuffer", c_ptr c_void);
          ("swapchainIndices", c_array (c_const c_int) 2) ]
        c_void.

Definition graphics_h : list fn_decl :=
  [ initGraphicsNative_decl; destroyGraphicsNative_decl;
    prepareLobbyRoom_decl; destroyRenderers_decl; setStreamConfig_decl;
    streamStartNative_decl; updateLobbyHudTexture_decl;
    renderLobbyNative_decl; renderStreamNative_decl ].

(* --------------------------------------------------------------------- *)
(** ** Settings.h                                                         *)
(* --------------------------------------------------------------------- *)

(** Modelled from the spec: [ALVR-common/packet_types.h], which declares
    [EyeFov], is not among the sources; the design document describes the
    per-eye field of view as left/right/top/bottom angles. *)
Record EyeFov : Type := mk_EyeFov {
  left   : float;
  right  : float;
  top    : float;
  bottom : float
}.

(** The non-static data members of [class Settings], in declaration order.
    [m_loaded] is the one private data member; the rest are public. *)
Record Settings : Type := mk_Settings {
  m_loaded                                : bool;
  m_universeId                            : Z;   (* uint64_t *)
  mSerialNumber                           : string;
  mTrackingSystemName                     : string;
  mModelNumber                            : string;
  mDriverVersion                          : string;
  mManufacturerName                       : string;
  mRenderModelName                        : string;
  mRegisteredDeviceType                   : string;
  m_nAdapterIndex                         : Z;   (* int32_t *)
  m_DriverTestMode                        : Z;   (* uint64_t = 0 *)
  m_refreshRate                           : Z;   (* int *)
  m_renderWidth                           : Z;   (* uint32_t *)
  m_renderHeight                          : Z;   (* uint32_t *)
  m_recommendedTargetWidth                : Z;   (* int32_t *)
  m_recommendedTargetHeight               : Z;   (* int32_t *)
  m_eyeFov                                : array EyeFov 2;
  m_flSecondsFromVsyncToPhotons           : float;
  m_flIPD                                 : float;
  m_enableFoveatedRendering               : bool;
  m_foveationCenterSizeX                  : float;
  m_foveationCenterSizeY                  : float;
  m_foveationCenterShiftX                 : float;
  m_foveationCenterShiftY                 : float;
  m_foveationEdgeRatioX                   : float;
  m_foveationEdgeRatioY                   : float;
  m_enableColorCorrection                 : bool;
  m_brightness                            : float;
  m_contrast                              : float;
  m_saturation                            : float;
  m_gamma                                 : float;
  m_sharpening                            : float;
  m_codec                                 : Z;   (* int *)
  mEncodeBitrateMBs                       : Z;   (* uint64_t *)
  m_enableAdaptiveBitrate                 : bool;
  m_adaptiveBitrateMaximum                : Z;   (* uint64_t *)
  m_adaptiveBitrateTarget                 : Z;   (* uint64_t *)
  m_adaptiveBitrateUseFrametime           : bool;
  m_adaptiveBitrateTargetMaximum          : Z;   (* uint64_t *)
  m_adaptiveBitrateTargetOffset           : Z;   (* int32_t *)
  m_adaptiveBitrateThreshold              : Z;   (* uint64_t *)
  m_adaptiveBitrateUpRate                 : Z;   (* uint64_t *)
  m_adaptiveBitrateDownRate               : Z;   (* uint64_t *)
  m_adaptiveBitrateLightLoadThreshold     : float;
  m_use10bitEncoder                       : bool;
  m_usePreproc                            : bool;
  m_preProcSigma                          : Z;   (* uint32_t *)
  m_preProcTor                            : Z;   (* uint32_t *)
  m_encoderQualityPreset                  : Z;   (* uint32_t *)
  m_rateControlMode                       : Z;   (* uint32_t *)
  m_entropyCoding                         : Z;   (* uint32_t *)
  m_force_sw_encoding                     : bool;
  m_swThreadCount                         : Z;   (* uint32_t *)
  m_controllerTrackingSystemName          : string;
  m_controllerManufacturerName            : string;
  m_controllerModelNumber                 : string;
  m_controllerRenderModelNameLeft         : string;
  m_controllerRenderModelNameRight        : string;
  m_controllerSerialNumber                : string;
  m_controllerTypeLeft                    : string;
  m_controllerTypeRight                   : string;
  mControllerRegisteredDeviceType         : string;
  m_controllerInputProfilePath            : string;
  m_disableController                     : bool;
  m_linearVelocityCutoff                  : float;
  m_angularVelocityCutoff                 : float;
  m_OffsetPos                             : array float 3;
  m_EnableOffsetPos                       : bool;
  m_leftControllerPositionOffset          : array double 3;
  m_leftControllerRotationOffset          : array double 3;
  m_overrideTriggerThreshold              : bool;
  m_triggerThreshold                      : float;
  m_overrideGripThreshold                 : bool;
  m_gripThreshold                         : float;
  m_hapticsIntensity                      : float;
  m_hapticsAmplitudeCurve                 : float;
  m_hapticsMinDuration                    : float;
  m_hapticsLowDurationAmplitudeMultiplier : float;
  m_hapticsLowDurationRange               : float;
  m_causePacketLoss                       : Z;   (* int32_t *)
  m_trackingFrameOffset                   : Z;   (* int32_t *)
  m_force3DOF                             : bool;
  m_aggressiveKeyframeResend              : bool;
  m_captureLayerDDSTrigger                : bool;   (* bool = false *)
  m_captureComposedDDSTrigger             : bool;   (* bool = false *)
  m_controllerMode                        : Z;   (* int = 0 *)
  m_TrackingRefOnly                       : bool;   (* bool = false *)
  m_enableViveTrackerProxy                : bool;   (* bool = false *)
  m_useHeadsetTrackingSystem              : bool;   (* bool = false *)
  m_videoPacketSize                       : Z;   (* int32_t *)
  m_enableLinuxVulkanAsync                : bool;
  m_nvencTuningPreset                     : Z;   (* uint32_t *)
  m_nvencMultiPass                        : Z;   (* uint32_t *)
  m_nvencAdaptiveQuantizationMode         : Z;   (* uint32_t *)
  m_nvencLowDelayKeyFrameScale            : Z;   (* int64_t *)
  m_nvencRefreshRate                      : Z;   (* int64_t *)
  m_nvencEnableIntraRefresh               : bool;
  m_nvencIntraRefreshPeriod               : Z;   (* int64_t *)
  m_nvencIntraRefreshCount                : Z;   (* int64_t *)
  m_nvencMaxNumRefFrames                  : Z;   (* int64_t *)
  m_nvencGopLength                        : Z;   (* int64_t *)
  m_nvencPFrameStrategy                   : Z;   (* int64_t *)
  m_nvencRateControlMode                  : Z;   (* int64_t *)
  m_nvencRcBufferSize                     : Z;   (* int64_t *)
  m_nvencRcInitialDelay                   : Z;   (* int64_t *)
  m_nvencRcMaxBitrate                     : Z;   (* int64_t *)
  m_nvencRcAverageBitrate                 : Z;   (* int64_t *)
  m_nvencEnableWeightedPrediction         : bool;
  m_captureFrameDir                       : string
}.

Definition Settings_fields : list field_decl :=
  [ ("m_loaded", c_bool);
    ("m_universeId", c_uint64);
    ("mSerialNumber", c_string);
    ("mTrackingSystemName", c_string);
    ("mModelNumber", c_string);
    ("mDriverVersion", c_string);
    ("mManufacturerName", c_string);
    ("mRenderModelName", c_string);
    ("mRegisteredDeviceType", c_string);
    ("m_nAdapterIndex", c_int32);
    ("m_DriverTestMode", c_uint64);
    ("m_refreshRate", c_int);
    ("m_renderWidth", c_uint32);
    ("m_renderHeight", c_uint32);
    ("m_recommendedTargetWidth", c_int32);
    ("m_recommendedTargetHeight", c_int32);
    ("m_eyeFov", c_array (c_struct "EyeFov") 2);
    ("m_flSecondsFromVsyncToPhotons", c_float);
    ("m_flIPD", c_float);
    ("m_enableFoveatedRendering", c_bool);
    ("m_foveationCenterSizeX", c_float);
    ("m_foveationCenterSizeY", c_float);
    ("m_foveationCenterShiftX", c_float);
    ("m_foveationCenterShiftY", c_float);
    ("m_foveationEdgeRatioX", c_float);
    ("m_foveationEdgeRatioY", c_float);
    ("m_enableColorCorrection", c_bool);
    ("m_brightness", c_float);
    ("m_contrast", c_float);
    ("m_saturation", c_float);
    ("m_gamma", c_float);
    ("m_sharpening", c_float);
    ("m_codec", c_int);
    ("mEncodeBitrateMBs", c_uint64);
    ("m_enableAdaptiveBitrate", c_bool);
    ("m_adaptiveBitrateMaximum", c_uint64);
    ("m_adaptiveBitrateTarget", c_uint64);
    ("m_adaptiveBitrateUseFrametime", c_bool);
    ("m_adaptiveBitrateTargetMaximum", c_uint64);
    ("m_adaptiveBitrateTargetOffset", c_int32);
    ("m_adaptiveBitrateThreshold", c_uint64);
    ("m_adaptiveBitrateUpRate", c_uint64);
    ("m_adaptiveBitrateDownRate", c_uint64);
    ("m_adaptiveBitrateLightLoadThreshold", c_float);
    ("m_use10bitEncoder", c_bool);
    ("m_usePreproc", c_bool);
    ("m_preProcSigma", c_uint32);
    ("m_preProcTor", c_uint32);
    ("m_encoderQualityPreset", c_uint32);
    ("m_rateControlMode", c_uint32);
    ("m_entropyCoding", c_uint32);
    ("m_force_sw_encoding", c_bool);
    ("m_swThreadCount", c_uint32);
    ("m_controllerTrackingSystemName", c_string);
    ("m_controllerManufacturerName", c_string);
    ("m_controllerModelNumber", c_string);
    ("m_controllerRenderModelNameLeft", c_string);
    ("m_controllerRenderModelNameRight", c_string);
    ("m_controllerSerialNumber", c_string);
    ("m_controllerTypeLeft", c_string);
    ("m_controllerTypeRight", c_string);
    ("mControllerRegisteredDeviceType", c_string);
    ("m_controllerInputProfilePath", c_string);
    ("m_disableController", c_bool);
    ("m_linearVelocityCutoff", c_float);
    ("m_angularVelocityCutoff", c_float);
    ("m_OffsetPos", c_array c_float 3);
    ("m_EnableOffsetPos", c_bool);
    ("m_leftControllerPositionOffset", c_array c_double 3);
    ("m_leftControllerRotationOffset", c_array c_double 3);
    ("m_overrideTriggerThreshold", c_bool);
    ("m_triggerThreshold", c_float);
    ("m_overrideGripThreshold", c_bool);
    ("m_gripThreshold", c_float);
    ("m_hapticsIntensity", c_float);
    ("m_hapticsAmplitudeCurve", c_float);
    ("m_hapticsMinDuration", c_float);
    ("m_hapticsLowDurationAmplitudeMultiplier", c_float);
    ("m_hapticsLowDurationRange", c_float);
    ("m_causePacketLoss", c_int32);
    ("m_trackingFrameOffset", c_int32);
    ("m_force3DOF", c_bool);
    ("m_aggressiveKeyframeResend", c_bool);
    ("m_captureLayerDDSTrigger", c_bool);
    ("m_captureComposedDDSTrigger", c_bool);
    ("m_controllerMode", c_int);
    ("m_TrackingRefOnly", c_bool);
    ("m_enableViveTrackerProxy", c_bool);
    ("m_useHeadsetTrackingSystem", c_bool);
    ("m_videoPacketSize", c_int32);
    ("m_enableLinuxVulkanAsync", c_bool);
    ("m_nvencTuningPreset", c_uint32);
    ("m_nvencMultiPass", c_uint32);
    ("m_nvencAdaptiveQuantizationMode", c_uint32);
    ("m_nvencLowDelayKeyFrameScale", c_int64);
    ("m_nvencRefreshRate", c_int64);
    ("m_nvencEnableIntraRefresh", c_bool);
    ("m_nvencIntraRefreshPeriod", c_int64);
    ("m_nvencIntraRefreshCount", c_int64);
    ("m_nvencMaxNumRefFrames", c_int64);
    ("m_nvencGopLength", c_int64);
    ("m_nvencPFrameStrategy", c_int64);
    ("m_nvencRateControlMode", c_int64);
    ("m_nvencRcBufferSize", c_int64);
    ("m_nvencRcInitialDelay", c_int64);
    ("m_nvencRcMaxBitrate", c_int64);
    ("m_nvencRcAverageBitrate", c_int64);
    ("m_nvencEnableWeightedPrediction", c_bool);
    ("m_captureFrameDir", c_string) ].

(** [bool IsLoaded() { return m_loaded; }] *)
Definition IsLoaded (this : Settings) : bool := m_loaded this.

(** A [Settings] value with every member zero, empty or false, to build
    concrete values from. *)
Definition EyeFov_zero : EyeFov := mk_EyeFov float_zero float_zero float_zero float_zero.

Definition Settings_zero : Settings :=
  {|
    m_loaded                                := false;
    m_universeId                            := 0;
    mSerialNumber                           := EmptyString;
    mTrackingSystemName                     := EmptyString;
    mModelNumber                            := EmptyString;
    mDriverVersion                          := EmptyString;
    mManufacturerName                       := EmptyString;
    mRenderModelName                        := EmptyString;
    mRegisteredDeviceType                   := EmptyString;
    m_nAdapterIndex                         := 0;
    m_DriverTestMode                        := 0;
    m_refreshRate                           := 0;
    m_renderWidth                           := 0;
    m_renderHeight                          := 0;
    m_recommendedTargetWidth                := 0;
    m_recommendedTargetHeight               := 0;
    m_eyeFov                                := (EyeFov_zero, (EyeFov_zero, tt));
    m_flSecondsFromVsyncToPhotons           := float_zero;
    m_flIPD                                 := float_zero;
    m_enableFoveatedRendering               := false;
    m_foveationCenterSizeX                  := float_zero;
    m_foveationCenterSizeY                  := float_zero;
    m_foveationCenterShiftX                 := float_zero;
    m_foveationCenterShiftY                 := float_zero;
    m_foveationEdgeRatioX                   := float_zero;
    m_foveationEdgeRatioY                   := float_zero;
    m_enableColorCorrection                 := false;
    m_brightness                            := float_zero;
    m_contrast                              := float_zero;
    m_saturation                            := float_zero;
    m_gamma                                 := float_zero;
    m_sharpening                            := float_zero;
    m_codec                                 := 0;
    mEncodeBitrateMBs                       := 0;
    m_enableAdaptiveBitrate                 := false;
    m_adaptiveBitrateMaximum                := 0;
    m_adaptiveBitrateTarget                 := 0;
    m_adaptiveBitrateUseFrametime           := false;
    m_adaptiveBitrateTargetMaximum          := 0;
    m_adaptiveBitrateTargetOffset           := 0;
    m_adaptiveBitrateThreshold              := 0;
    m_adaptiveBitrateUpRate                 := 0;
    m_adaptiveBitrateDownRate               := 0;
    m_adaptiveBitrateLightLoadThreshold     := float_zero;
    m_use10bitEncoder                       := false;
    m_usePreproc                            := false;
    m_preProcSigma                          := 0;
    m_preProcTor                            := 0;
    m_encoderQualityPreset                  := 0;
    m_rateControlMode                       := 0;
    m_entropyCoding                         := 0;
    m_force_sw_encoding                     := false;
    m_swThreadCount                         := 0;
    m_controllerTrackingSystemName          := EmptyString;
    m_controllerManufacturerName            := EmptyString;
    m_controllerModelNumber                 := EmptyString;
    m_controllerRenderModelNameLeft         := EmptyString;
    m_controllerRenderModelNameRight        := EmptyString;
    m_controllerSerialNumber                := EmptyString;
    m_controllerTypeLeft                    := EmptyString;
    m_controllerTypeRight                   := EmptyString;
    mControllerRegisteredDeviceType         := EmptyString;
    m_controllerInputProfilePath            := EmptyString;
    m_disableController                     := false;
    m_linearVelocityCutoff                  := float_zero;
    m_angularVelocityCutoff                 := float_zero;
    m_OffsetPos                             := (float_zero, (float_zero, (float_zero, tt)));
    m_EnableOffsetPos                       := false;
    m_leftControllerPositionOffset          := (float_zero, (float_zero, (float_zero, tt)));
    m_leftControllerRotationOffset          := (float_zero, (float_zero, (float_zero, tt)));
    m_overrideTriggerThreshold              := false;
    m_triggerThreshold                      := float_zero;
    m_overrideGripThreshold                 := false;
    m_gripThreshold                         := float_zero;
    m_hapticsIntensity                      := float_zero;
    m_hapticsAmplitudeCurve                 := float_zero;
    m_hapticsMinDuration                    := float_zero;
    m_hapticsLowDurationAmplitudeMultiplier := float_zero;
    m_hapticsLowDurationRange               := float_zero;
    m_causePacketLoss                       := 0;
    m_trackingFrameOffset                   := 0;
    m_force3DOF                             := false;
    m_aggressiveKeyframeResend              := false;
    m_captureLayerDDSTrigger                := false;
    m_captureComposedDDSTrigger             := false;
    m_controllerMode                        := 0;
    m_TrackingRefOnly                       := false;
    m_enableViveTrackerProxy                := false;
    m_useHeadsetTrackingSystem              := false;
    m_videoPacketSize                       := 0;
    m_enableLinuxVulkanAsync                := false;
    m_nvencTuningPreset                     := 0;
    m_nvencMultiPass                        := 0;
    m_nvencAdaptiveQuantizationMode         := 0;
    m_nvencLowDelayKeyFrameScale            := 0;
    m_nvencRefreshRate                      := 0;
    m_nvencEnableIntraRefresh               := false;
    m_nvencIntraRefreshPeriod               := 0;
    m_nvencIntraRefreshCount                := 0;
    m_nvencMaxNumRefFrames                  := 0;
    m_nvencGopLength                        := 0;
    m_nvencPFrameStrategy                   := 0;
    m_nvencRateControlMode                  := 0;
    m_nvencRcBufferSize                     := 0;
    m_nvencRcInitialDelay                   := 0;
    m_nvencRcMaxBitrate                     := 0;
    m_nvencRcAverageBitrate                 := 0;
    m_nvencEnableWeightedPrediction         := false;
    m_captureFrameDir                       := EmptyString
  |}.

(** *** The class declaration: access and special members *)

Inductive access : Type := acc_private | acc_public.

Inductive member_decl : Type :=
| static_data (name : string) (t : ctype)
| data (f : field_decl)
| constructor (params : list ctype)
| destructor (is_virtual : bool)
| method (is_static : bool) (name : string) (params : list ctype) (ret : ctype).

(** [class Settings { ... }], member by member.  Members before [public:]
    are private (the default of [class]). *)
Definition Settings_class : list (access * member_decl) :=
  [ (acc_private, static_data "m_Instance" (c_struct "Settings"));
    (acc_private, data ("m_loaded", c_bool));
    (acc_private, constructor []);
    (acc_private, destructor true);
    (acc_public,  method false "Load" [] c_void);
    (acc_public,  method true "Instance" [] (c_ref (c_struct "Settings")));
    (acc_public,  method false "IsLoaded" [] c_bool) ]
  ++ map (fun f => (acc_public, data f)) (tl Settings_fields).

Definition access_eqb (a b : access) : bool :=
  match a, b with
  | acc_private, acc_private | acc_public, acc_public => true
  | _, _ => false
  end.

Definition declared_ctors (ms : list (access * member_decl))
  : list (access * list ctype) :=
  flat_map (fun am => match snd am with
                      | constructor ps => [(fst am, ps)]
                      | _ => []
                      end) ms.

Definition declared_dtor (ms : list (access * member_decl)) : option access :=
  match filter (fun am => match snd am with destructor _ => true | _ => false end) ms with
  | am :: _ => Some (fst am)
  | [] => None
  end.

(** A constructor of class [cls] whose single parameter is [cls &] or
    [const cls &] is a copy constructor. *)
Definition is_copy_ctor (cls : string) (params : list ctype) : bool :=
  match params with
  | [c_ref (c_struct n)] | [c_ref (c_const (c_struct n))] => String.eqb n cls
  | _ => false
  end.

Definition is_default_ctor (params : list ctype) : bool :=
  match params with [] => true | _ => false end.

(** The special member functions through which objects are created and
    destroyed. *)
Inductive special_member : Type :=
| default_ctor
| copy_ctor
| dtor.

(** The access of a special member of class [cls], [None] when the class
    has no such member.  A member the class declares has the access of its
    declaration.  For the ones it does not declare, C++ supplies: a public
    default constructor when the class declares no constructor at all; a
    public copy constructor when the class declares no copy constructor (a
    user-declared destructor does not suppress it, it suppresses only the
    implicit move operations); a public destructor. *)
Definition special_access (cls : string) (ms : list (access * member_decl))
           (sp : special_member) : option access :=
  let ctors := declared_ctors ms in
  match sp with
  | default_ctor =>
      match filter (fun c => is_default_ctor (snd c)) ctors, ctors with
      | c :: _, _ => Some (fst c)
      | [], [] => Some acc_public
      | [], _ :: _ => None
      end
  | copy_ctor =>
      match filter (fun c => is_copy_ctor cls (snd c)) ctors with
      | c :: _ => Some (fst c)
      | [] => Some acc_public
      end
  | dtor =>
      match declared_dtor ms with
      | Some a => Some a
      | None => Some acc_public
      end
  end.

(** Code outside the class (not a member, not a friend; [Settings] declares
    no friend) may use a special member only when it is public. *)
Definition usable_outside (cls : string) (ms : list (access * member_decl))
           (sp : special_member) : bool :=
  match special_access cls ms sp with
  | Some acc_public => true
  | _ => false
  end.

(** *** The objects of type [Settings] in a process *)

(** A reference to a [Settings] object: the static data member
    [Settings::m_Instance], or an object created elsewhere. *)
Inductive object_ref : Type :=
| ref_m_Instance
| ref_other (n : nat).

Record Process : Type := mk_Process {
  m_Instance : Settings;          (* static Settings m_Instance; *)
  others     : list Settings      (* any further Settings objects *)
}.

(** [static Settings &Instance() { return m_Instance; }] *)
Definition Instance (p : Process) : object_ref := ref_m_Instance.

Definition deref (p : Process) (r : object_ref) : option Settings :=
  match r with
  | ref_m_Instance => Some (m_Instance p)
  | ref_other n => nth_error (others p) n
  end.

Definition live_objects (p : Process) : nat := S (List.length (others p)).

(** Operations that code outside the class can write against the header:
    calls of the public member functions, and the creation and destruction
    of objects by new-expressions, declarations and delete-expressions.
    The list is not exhaustive (placement new, release of raw storage and
    assignment are not in it). *)
Inductive client_op : Type :=
| call_Instance                       (* Settings::Instance() *)
| call_IsLoaded (r : object_ref)      (* r.IsLoaded() *)
| call_Load (r : object_ref)          (* r.Load() *)
| new_default                         (* new Settings() *)
| new_copy (src : object_ref)         (* new Settings(src) *)
| local_default                       (* Settings s; *)
| local_copy (src : object_ref)       (* Settings s(src); *)
| delete_other (n : nat).             (* delete p; *)

(** The special members an operation needs.  An object with automatic
    storage needs the destructor as well as the constructor, since it is
    destroyed when its scope ends; a new-expression for a single object
    needs only the constructor. *)
Definition needs (op : client_op) : list special_member :=
  match op with
  | call_Instance | call_IsLoaded _ | call_Load _ => []
  | new_default => [default_ctor]
  | new_copy _ => [copy_ctor]
  | local_default => [default_ctor; dtor]
  | local_copy _ => [copy_ctor; dtor]
  | delete_other _ => [dtor]
  end.

Definition compiles (op : client_op) : bool :=
  forallb (usable_outside "Settings" Settings_class) (needs op).

Section Client.

(** [void Load();] is defined in [Settings.cpp], which is not among the
    sources: its effect on the object it is called on is a parameter. *)
Variable Load : Settings -> Settings.

(** The value a default-constructed object starts with; the constructor is
    defined in [Settings.cpp] as well. *)
Variable constructed : Settings.

Definition update (p : Process) (r : object_ref) (f : Settings -> Settings)
  : option Process :=
  match r with
  | ref_m_Instance => Some (mk_Process (f (m_Instance p)) (others p))
  | ref_other n =>
      match nth_error (others p) n with
      | Some s =>
          Some (mk_Process (m_Instance p)
                  (firstn n (others p) ++ f s :: skipn (S n) (others p)))
      | None => None
      end
  end.

(** One operation of client code; [None] when the operation is ill-formed
    (it needs a member that is not accessible) or uses a dangling
    reference. *)
Definition client_step (p : Process) (op : client_op) : option Process :=
  if compiles op then
    match op with
    | call_Instance => Some p
    | call_IsLoaded r =>
        match deref p r with Some _ => Some p | None => None end
    | call_Load r => update p r Load
    | new_default | local_default =>
        Some (mk_Process (m_Instance p) (others p ++ [constructed]))
    | new_copy src | local_copy src =>
        match deref p src with
        | Some s => Some (mk_Process (m_Instance p) (others p ++ [s]))
        | None => None
        end
    | delete_other n =>
        match nth_error (others p) n with
        | Some _ =>
            Some (mk_Process (m_Instance p)
                    (firstn n (others p) ++ skipn (S n) (others p)))
        | None => None
        end
    end
  else None.

Fixpoint client_run (p : Process) (ops : list client_op) : option Process :=
  match ops with
  | [] => Some p
  | op :: rest =>
      match client_step p op with
      | Some p' => client_run p' rest
      | None => None
      end
  end.

End Client.

(* --------------------------------------------------------------------- *)
(** ** The entities of the design document                                *)
(* --------------------------------------------------------------------- *)

(** The entities as the design document words them, to set against the
    records of the headers. *)
Module Spec.

(** The design document's Pose: orientation (4 floats), position
    (3 floats), per-eye field of view, and a timestamp. *)
Record Pose : Type := mk_Pose {
  orientation : array float 4;
  position    : array float 3;
  fov         : EyeFov;
  timestamp   : Z
}.

(** The design document's StreamConfig: view width and height, the
    foveation flag, and centre size, centre shift and edge ratio, each per
    axis (x, y). *)
Record StreamConfig : Type := mk_StreamConfig {
  viewWidth        : Z;
  viewHeight       : Z;
  foveationEnabled : bool;
  centerSize       : float * float;
  centerShift      : float * float;
  edgeRatio        : float * float
}.

End Spec.

(** The wire form of a StreamConfig and back. *)
Definition to_wire (c : Spec.StreamConfig) : StreamConfigInput :=
  {| viewWidth             := Spec.viewWidth c;
     viewHeight            := Spec.viewHeight c;
     enableFoveation       := Spec.foveationEnabled c;
     foveationCenterSizeX  := fst (Spec.centerSize c);
     foveationCenterSizeY  := snd (Spec.centerSize c);
     foveationCenterShiftX := fst (Spec.centerShift c);
     foveationCenterShiftY := snd (Spec.centerShift c);
     foveationEdgeRatioX   := fst (Spec.edgeRatio c);
     foveationEdgeRatioY   := snd (Spec.edgeRatio c) |}.

Definition of_wire (m : StreamConfigInput) : Spec.StreamConfig :=
  {| Spec.viewWidth        := viewWidth m;
     Spec.viewHeight       := viewHeight m;
     Spec.foveationEnabled := enableFoveation m;
     Spec.centerSize       := (foveationCenterSizeX m, foveationCenterSizeY m);
     Spec.centerShift      := (foveationCenterShiftX m, foveationCenterShiftY m);
     Spec.edgeRatio        := (foveationEdgeRatioX m, foveationEdgeRatioY m) |}.

(** The part of a Pose that an [EyeInput] has room for. *)
Definition to_EyeInput (p : Spec.Pose) : EyeInput :=
  {| orientation := Spec.orientation p;
     position    := Spec.position p;
     fovLeft     := left (Spec.fov p);
     fovRight    := right (Spec.fov p);
     fovTop      := top (Spec.fov p);
     fovBottom   := bottom (Spec.fov p) |}.

(** The adaptive-bitrate tunables of [Settings], gathered. *)
Record BitrateTunables : Type := mk_BitrateTunables {
  bt_maximum            : Z;
  bt_upRate             : Z;
  bt_downRate           : Z;
  bt_lightLoadThreshold : float;
  bt_useFrametime       : bool;
  bt_targetOffset       : Z;
  bt_targetMaximum      : Z
}.

Definition bitrate_tunables (s : Settings) : BitrateTunables :=
  {| bt_maximum            := m_adaptiveBitrateMaximum s;
     bt_upRate             := m_adaptiveBitrateUpRate s;
     bt_downRate           := m_adaptiveBitrateDownRate s;
     bt_lightLoadThreshold := m_adaptiveBitrateLightLoadThreshold s;
     bt_useFrametime       := m_adaptiveBitrateUseFrametime s;
     bt_targetOffset       := m_adaptiveBitrateTargetOffset s;
     bt_targetMaximum      := m_adaptiveBitrateTargetMaximum s |}.

(** Looking a member up in a declaration table. *)
Fixpoint lookup_field (name : string) (fs : list field_decl) : option ctype :=
  match fs with
  | [] => None
  | (n, t) :: rest => if String.eqb n name then Some t else lookup_field name rest
  end.

Fixpoint count_field (name : string) (fs : list field_decl) : nat :=
  match fs with
  | [] => O
  | (n, _) :: rest =>
      ((if String.eqb n name then 1 else 0) + count_field name rest)%nat
  end.

(** The members of [Settings] behind the bitrate tunables, by name. *)
Definition bitrate_tunable_fields : list field_decl :=
  [ ("m_adaptiveBitrateMaximum",            c_uint64);
    ("m_adaptiveBitrateUpRate",             c_uint64);
    ("m_adaptiveBitrateDownRate",           c_uint64);
    ("m_adaptiveBitrateLightLoadThreshold", c_float);
    ("m_adaptiveBitrateUseFrametime",       c_bool);
    ("m_adaptiveBitrateTargetOffset",       c_int32);
    ("m_adaptiveBitrateTargetMaximum",      c_uint64) ].

(* --------------------------------------------------------------------- *)
(** ** FrameScheduler                                                     *)
(* --------------------------------------------------------------------- *)

(** Modelled from the spec: the frame scheduler (sections 3, 4.3 and 4.4).
    None of its code is among the sources. *)
Module FrameScheduler.

(** An encoded frame: sequence number, payload size, encode timestamp and
    a copy of the pose it was rendered for, tagged with the identifier of
    the session it belongs to. *)
Record EncodedFrame : Type := mk_Frame {
  sessionId       : nat;
  sequenceNumber  : Z;
  payloadSize     : Z;
  encodeTimestamp : Z;
  pose            : Spec.Pose
}.

(** The scheduler between encoder and network: the active session, the
    floor its counter started from, the next sequence number to hand out,
    the frames encoded but not yet sent (oldest first), and what has been
    handed to the network (newest first). *)
Record State : Type := mk_State {
  session      : nat;
  floor        : Z;
  nextSequence : Z;
  queue        : list EncodedFrame;
  transmitted  : list EncodedFrame
}.

Inductive Event : Type :=
| ev_encode (size ts : Z) (p : Spec.Pose)   (* a rendered frame is encoded *)
| ev_transmit                               (* the oldest queued frame is sent *)
| ev_drop (i : nat)                         (* the i-th queued frame times out *)
| ev_renegotiate (new_floor : Z).           (* the session is replaced *)

Definition start (fl : Z) : State := mk_State 0 fl fl [] [].

Definition remove_nth {A : Type} (i : nat) (l : list A) : list A :=
  firstn i l ++ skipn (S i) l.

(** Modelled from the spec: the scheduler's code is not among the sources.
    Encoding takes the next sequence number of the active session and
    queues the frame; the encode-to-transmit hand-off is serialised, so
    frames leave the queue oldest first; a frame that ages out is dropped
    without holding back the others; renegotiation starts a new session
    with a fresh identifier and a fresh counter at that session's floor,
    discarding the frames still in flight. *)
Definition step (st : State) (ev : Event) : State :=
  match ev with
  | ev_encode size ts p =>
      mk_State (session st) (floor st) (nextSequence st + 1)
               (queue st ++ [mk_Frame (session st) (nextSequence st) size ts p])
               (transmitted st)
  | ev_transmit =>
      match queue st with
      | [] => st
      | f :: q =>
          mk_State (session st) (floor st) (nextSequence st) q
                   (f :: transmitted st)
      end
  | ev_drop i =>
      mk_State (session st) (floor st) (nextSequence st)
               (remove_nth i (queue st)) (transmitted st)
  | ev_renegotiate new_floor =>
      mk_State (S (session st)) new_floor new_floor [] (transmitted st)
  end.

Definition run (fl : Z) (evs : list Event) : State :=
  fold_left step evs (start fl).

(** A frame's tag on the wire. *)
Definition tag (f : EncodedFrame) : nat * Z := (sessionId f, sequenceNumber f).

(** In a log kept newest first, every frame has a larger sequence number
    than each earlier frame of the same session. *)
Fixpoint increasing_per_session (log : list EncodedFrame) : Prop :=
  match log with
  | [] => True
  | g :: earlier =>
      Forall (fun f => sessionId f = sessionId g ->
                       sequenceNumber f < sequenceNumber g) earlier /\
      increasing_per_session earlier
  end.

(** What holds of every state the scheduler reaches. *)
Record invariant (st : State) : Prop := mk_invariant {
  inv_floor : floor st <= nextSequence st;
  inv_queue_session :
    Forall (fun f => sessionId f = session st) (queue st);
  inv_queue_bound :
    Forall (fun f => floor st <= sequenceNumber f < nextSequence st) (queue st);
  inv_queue_sorted :
    StronglySorted (fun a b => sequenceNumber a < sequenceNumber b) (queue st);
  inv_sent_session :
    Forall (fun f => (sessionId f <= session st)%nat) (transmitted st);
  inv_sent_before_queue :
    Forall (fun f => sessionId f = session st ->
                     floor st <= sequenceNumber f < nextSequence st /\
                     Forall (fun q => sequenceNumber f < sequenceNumber q)
                            (queue st))
           (transmitted st);
  inv_sent_increasing : increasing_per_session (transmitted st)
}.

End FrameScheduler.

(* --------------------------------------------------------------------- *)
(** ** Auxiliary definitions for the statements below                     *)
(* --------------------------------------------------------------------- *)

(** The foveation members of the server's [Settings], in the order of the
    wire record. *)
Definition server_foveation_fields : list field_decl :=
  [ ("m_enableFoveatedRendering", c_bool);
    ("m_foveationCenterSizeX",    c_float);
    ("m_foveationCenterSizeY",    c_float);
    ("m_foveationCenterShiftX",   c_float);
    ("m_foveationCenterShiftY",   c_float);
    ("m_foveationEdgeRatioX",     c_float);
    ("m_foveationEdgeRatioY",     c_float) ].

(** Two poses that differ in nothing but the timestamp. *)
Definition pose_at (ts : Z) : Spec.Pose :=
  Spec.mk_Pose (float_zero, (float_zero, (float_zero, (float_one, tt))))
               (float_zero, (float_one, (float_zero, tt)))
               (mk_EyeFov float_half float_half float_half float_half)
               ts.

Definition with_timestamp (p : Spec.Pose) (ts : Z) : Spec.Pose :=
  Spec.mk_Pose (Spec.orientation p) (Spec.position p) (Spec.fov p) ts.

Definition param_types (d : fn_decl) : list ctype := map snd (fn_params d).

Definition returns_void (d : fn_decl) : bool := ctype_eqb (fn_ret d) c_void.

(** Does a type mention [struct EyeInput]? *)
Fixpoint mentions_EyeInput (t : ctype) : bool :=
  match t with
  | c_struct n => String.eqb n "EyeInput"
  | c_const u | c_ptr u | c_ref u | c_array u _ => mentions_EyeInput u
  | _ => false
  end.

Definition takes_eye_poses (d : fn_decl) : bool :=
  existsb mentions_EyeInput (param_types d).

(** Can the callee write through a parameter of this type?  Only through a
    pointer, reference or array whose element type is not [const]. *)
Fixpoint writable (t : ctype) : bool :=
  match t with
  | c_ptr (c_const _) | c_ref (c_const _) | c_array (c_const _) _ => false
  | c_ptr _ | c_ref _ => true
  | c_array _ _ => true
  | c_const u => writable u
  | _ => false
  end.

(** Every entry of [want] is declared in [have], once, with that type. *)
Definition declared_once (have want : list field_decl) : bool :=
  forallb (fun f =>
             match lookup_field (fst f) have with
             | Some t => ctype_eqb t (snd f)
             | None => false
             end && Nat.eqb (count_field (fst f) have) 1) want.

Fixpoint distinct_names (names : list string) : bool :=
  match names with
  | [] => true
  | n :: rest => negb (existsb (String.eqb n) rest) && distinct_names rest
  end.

(** A process as it starts: the static object and nothing else. *)
Definition fresh_process : Process := mk_Process Settings_zero [].

(** The operations that need the private default constructor or the private
    destructor. *)
Definition needs_private (op : client_op) : bool :=
  match op with
  | new_default | local_default | local_copy _ | delete_other _ => true
  | call_Instance | call_IsLoaded _ | call_Load _ | new_copy _ => false
  end.

(** Filling the members of a [Settings] value that a goal leaves open. *)
Ltac fill_members :=
  first [ exact false | exact 0 | exact EmptyString | exact float_zero
        | exact EyeFov_zero
        | exact (float_zero, (float_zero, (float_zero, tt)))
        | exact (EyeFov_zero, (EyeFov_zero, tt)) ].

(* ===================================================================== *)
(** * Part II: properties                                                 *)
(* ===================================================================== *)

(** ** Structure of the records that cross the client boundary *)

(** Reading the members of a record out and putting them back changes
    nothing: a record is its members and nothing more. *)
Lemma StreamConfigInput_eta (m : StreamConfigInput) :
  m = mk_StreamConfigInput
        (viewWidth m) (viewHeight m) (enableFoveation m)
        (foveationCenterSizeX m) (foveationCenterSizeY m)
        (foveationCenterShiftX m) (foveationCenterShiftY m)
        (foveationEdgeRatioX m) (foveationEdgeRatioY m).
Proof. destruct m; reflexivity. Qed.

Lemma EyeInput_eta (e : EyeInput) :
  e = mk_EyeInput (orientation e) (position e)
                  (fovLeft e) (fovRight e) (fovTop e) (fovBottom e).
Proof. destruct e; reflexivity. Qed.

Lemma of_wire_to_wire (c : Spec.StreamConfig) : of_wire (to_wire c) = c.
Proof.
  destruct c as [w h en [sx sy] [hx hy] [ex ey]]; reflexivity.
Qed.

Lemma to_wire_of_wire (m : StreamConfigInput) : to_wire (of_wire m) = m.
Proof. destruct m; reflexivity. Qed.

Lemma array_to_list_length {A : Type} (n : nat) (a : array A n) :
  List.length (array_to_list a) = n.
Proof.
  induction n as [|n IH]; simpl.
  - reflexivity.
  - destruct a as [x rest]; simpl. now rewrite IH.
Qed.

(** C1: the wire record [StreamConfigInput] is an exact analog of the
    StreamConfig entity.  Converting a StreamConfig to the wire record and
    back, or the other way round, gives back what one started from, so the
    two carry the same information; the wire record is made of exactly nine
    members (view width and height as unsigned integers, the foveation flag
    as a boolean, and centre size, centre shift and edge ratio per axis as
    six floats) and is determined by them.  The server end keeps the
    foveation flag and the six ratios in [Settings] as members of the same
    types, in the same order. *)
Theorem StreamConfigInput_exact_analog :
  (forall c : Spec.StreamConfig, of_wire (to_wire c) = c) /\
  (forall m : StreamConfigInput, to_wire (of_wire m) = m) /\
  (forall m : StreamConfigInput,
      m = mk_StreamConfigInput
            (Spec.viewWidth (of_wire m)) (Spec.viewHeight (of_wire m))
            (Spec.foveationEnabled (of_wire m))
            (fst (Spec.centerSize (of_wire m))) (snd (Spec.centerSize (of_wire m)))
            (fst (Spec.centerShift (of_wire m))) (snd (Spec.centerShift (of_wire m)))
            (fst (Spec.edgeRatio (of_wire m))) (snd (Spec.edgeRatio (of_wire m)))) /\
  map fst StreamConfigInput_fields =
    [ "viewWidth"; "viewHeight"; "enableFoveation";
      "foveationCenterSizeX"; "foveationCenterSizeY";
      "foveationCenterShiftX"; "foveationCenterShiftY";
      "foveationEdgeRatioX"; "foveationEdgeRatioY" ] /\
  map snd StreamConfigInput_fields =
    [ c_uint; c_uint; c_bool;
      c_float; c_float; c_float; c_float; c_float; c_float ] /\
  declared_once Settings_fields server_foveation_fields = true /\
  map snd server_foveation_fields
    = skipn 2 (map snd StreamConfigInput_fields).
Proof.
  split; [exact of_wire_to_wire|].
  split; [exact to_wire_of_wire|].
  split; [intro m; simpl; apply StreamConfigInput_eta|].
  split; [reflexivity|].
  split; [reflexivity|].
  split; [vm_compute; reflexivity|reflexivity].
Qed.

(** The claim of C2 fails: [EyeInput] has no member for a timestamp.  None
    of its members is called so, every member is a float or an array of
    floats, and two poses sampled at different times arrive at the renderer
    as the same [EyeInput]. *)
Lemma EyeInput_timestamp_lost :
  lookup_field "timestamp" EyeInput_fields = None /\
  forallb (fun f => match snd f with
                    | c_float | c_array c_float _ => true
                    | _ => false
                    end) EyeInput_fields = true /\
  Spec.timestamp (pose_at 1000) <> Spec.timestamp (pose_at 2000) /\
  to_EyeInput (pose_at 1000) = to_EyeInput (pose_at 2000).
Proof.
  repeat split; try reflexivity.
  simpl. discriminate.
Qed.

(** C2, amended: the record passed across the render interface consists of
    an orientation of 4 floats, a position of 3 floats and the four
    field-of-view angles, and of nothing else: it is determined by these
    members, every value of it comes from a pose, and the timestamp of the
    pose has no influence on it. *)
Theorem EyeInput_components :
  (forall e : EyeInput,
      e = mk_EyeInput (orientation e) (position e)
                      (fovLeft e) (fovRight e) (fovTop e) (fovBottom e) /\
      List.length (array_to_list (orientation e)) = 4%nat /\
      List.length (array_to_list (position e)) = 3%nat) /\
  (forall e : EyeInput, exists p : Spec.Pose, to_EyeInput p = e) /\
  (forall (p : Spec.Pose) (ts : Z),
      to_EyeInput (with_timestamp p ts) = to_EyeInput p) /\
  EyeInput_fields =
    [ ("orientation", c_array c_float 4); ("position", c_array c_float 3);
      ("fovLeft", c_float); ("fovRight", c_float);
      ("fovTop", c_float); ("fovBottom", c_float) ].
Proof.
  split.
  { intro e. split; [apply EyeInput_eta|].
    split; apply array_to_list_length. }
  split.
  { intros [o p l r t b].
    exists (Spec.mk_Pose o p (mk_EyeFov l r t b) 0). reflexivity. }
  split; reflexivity.
Qed.

(** ** The entry points of graphics.h *)

(** The claim of C7 fails for [beginFrame]: no entry point takes eye poses
    and gives texture handles back.  The only entry point that takes eye
    poses is [renderLobbyNative]; it returns [void] and both its parameters
    are arrays of [const], so nothing comes back from it.  Indeed every
    entry point of the header returns [void]. *)
Lemma no_entry_point_returns_textures :
  filter takes_eye_poses graphics_h = [renderLobbyNative_decl] /\
  fn_ret renderLobbyNative_decl = c_void /\
  existsb writable (param_types renderLobbyNative_decl) = false /\
  forallb returns_void graphics_h = true.
Proof. repeat split; reflexivity. Qed.

(** C7, amended: the render boundary of the header has the two presenting
    entry points with the stated shapes, [renderLobbyNative] taking two eye
    poses and two swapchain indices and [renderStreamNative] taking a
    decoded buffer and two swapchain indices; every entry point returns
    [void]; and texture handles are passed in by the caller, as the
    [swapchainTextures[2]] of [prepareLobbyRoom] and [streamStartNative],
    not returned. *)
Theorem render_boundary_shape :
  In renderLobbyNative_decl graphics_h /\
  param_types renderLobbyNative_decl =
    [ c_array (c_const (c_struct "EyeInput")) 2; c_array (c_const c_int) 2 ] /\
  In renderStreamNative_decl graphics_h /\
  param_types renderStreamNative_decl =
    [ c_ptr c_void; c_array (c_const c_int) 2 ] /\
  forallb returns_void graphics_h = true /\
  map fn_name
      (filter (fun d => existsb (ctype_eqb (c_array (c_ptr (c_const c_int)) 2))
                                (param_types d)) graphics_h) =
    [ "prepareLobbyRoom"; "streamStartNative" ] /\
  map fn_name graphics_h =
    [ "initGraphicsNative"; "destroyGraphicsNative"; "prepareLobbyRoom";
      "destroyRenderers"; "setStreamConfig"; "streamStartNative";
      "updateLobbyHudTexture"; "renderLobbyNative"; "renderStreamNative" ].
Proof.
  repeat split; try reflexivity; simpl; tauto.
Qed.

(** ** The tunables held by Settings *)

Lemma bitrate_tunables_onto (t : BitrateTunables) :
  exists s : Settings, bitrate_tunables s = t.
Proof.
  destruct t as [mx up down light ft off tmax].
  unshelve eexists.
  { econstructor; shelve. }
  unfold bitrate_tunables; simpl. reflexivity.
  Unshelve. all: fill_members.
Qed.

(** C8: the settings object holds every tunable of the bitrate controller
    as a member of its own: the adaptive bitrate maximum, the up rate, the
    down rate, the light-load threshold, the use-frametime flag, the target
    offset and the target maximum are each declared once in [Settings],
    under seven different names, and they are independent of one another:
    any combination of seven values is the reading of some settings
    object. *)
Theorem bitrate_tunables_are_fields :
  declared_once Settings_fields bitrate_tunable_fields = true /\
  distinct_names (map fst bitrate_tunable_fields) = true /\
  List.length bitrate_tunable_fields = 7%nat /\
  (forall s : Settings,
      bt_maximum (bitrate_tunables s) = m_adaptiveBitrateMaximum s /\
      bt_upRate (bitrate_tunables s) = m_adaptiveBitrateUpRate s /\
      bt_downRate (bitrate_tunables s) = m_adaptiveBitrateDownRate s /\
      bt_lightLoadThreshold (bitrate_tunables s)
        = m_adaptiveBitrateLightLoadThreshold s /\
      bt_useFrametime (bitrate_tunables s) = m_adaptiveBitrateUseFrametime s /\
      bt_targetOffset (bitrate_tunables s) = m_adaptiveBitrateTargetOffset s /\
      bt_targetMaximum (bitrate_tunables s) = m_adaptiveBitrateTargetMaximum s) /\
  (forall t : BitrateTunables, exists s : Settings, bitrate_tunables s = t).
Proof.
  split; [vm_compute; reflexivity|].
  split; [vm_compute; reflexivity|].
  split; [reflexivity|].
  split; [intro s; repeat split|].
  exact bitrate_tunables_onto.
Qed.

(** ** The settings singleton *)

Lemma default_ctor_private :
  special_access "Settings" Settings_class default_ctor = Some acc_private.
Proof. vm_compute. reflexivity. Qed.

Lemma dtor_private :
  special_access "Settings" Settings_class dtor = Some acc_private.
Proof. vm_compute. reflexivity. Qed.

Lemma copy_ctor_public :
  special_access "Settings" Settings_class copy_ctor = Some acc_public.
Proof. vm_compute. reflexivity. Qed.

Lemma compiles_cases (op : client_op) :
  compiles op =
  match op with
  | call_Instance | call_IsLoaded _ | call_Load _ | new_copy _ => true
  | new_default | local_default | local_copy _ | delete_other _ => false
  end.
Proof.
  unfold compiles, usable_outside.
  destruct op; simpl needs; cbn [forallb];
    rewrite ?default_ctor_private, ?dtor_private, ?copy_ctor_public;
    reflexivity.
Qed.

(** C10: the class is written as a singleton (the default constructor and
    the destructor are private, the one object is the static [m_Instance])
    but it declares no copy constructor, so the implicit public one is
    there, and a new-expression does not need the destructor:
    [new Settings(Settings::Instance())] is accepted and leaves a second
    [Settings] object in the process, where the claim has it that no other
    object can ever be created. *)
Lemma copy_creates_second_object :
  special_access "Settings" Settings_class default_ctor = Some acc_private /\
  special_access "Settings" Settings_class dtor = Some acc_private /\
  special_access "Settings" Settings_class copy_ctor = Some acc_public /\
  Instance fresh_process = ref_m_Instance /\
  compiles (new_copy (Instance fresh_process)) = true /\
  exists p' : Process,
    client_run (fun s => s) Settings_zero fresh_process
               [new_copy (Instance fresh_process)] = Some p' /\
    live_objects fresh_process = 1%nat /\
    live_objects p' = 2%nat.
Proof.
  split; [exact default_ctor_private|].
  split; [exact dtor_private|].
  split; [exact copy_ctor_public|].
  split; [reflexivity|].
  split; [rewrite compiles_cases; reflexivity|].
  exists (mk_Process Settings_zero [Settings_zero]).
  split; [vm_compute; reflexivity|].
  split; reflexivity.
Qed.

(** ** FrameScheduler *)

Module FrameSchedulerFacts.
Import FrameScheduler.

Lemma remove_nth_nil {A : Type} (i : nat) : remove_nth i (@nil A) = [].
Proof. unfold remove_nth. now rewrite firstn_nil, skipn_nil. Qed.

Lemma remove_nth_0 {A : Type} (x : A) (l : list A) :
  remove_nth 0 (x :: l) = l.
Proof. reflexivity. Qed.

Lemma remove_nth_S {A : Type} (i : nat) (x : A) (l : list A) :
  remove_nth (S i) (x :: l) = x :: remove_nth i l.
Proof. reflexivity. Qed.

Lemma Forall_remove_nth {A : Type} (P : A -> Prop) (i : nat) (l : list A) :
  Forall P l -> Forall P (remove_nth i l).
Proof.
  revert i. induction l as [|x l IH]; intros i H.
  - now rewrite remove_nth_nil.
  - inversion H as [|? ? Hx Hl]; subst.
    destruct i as [|i].
    + now rewrite remove_nth_0.
    + rewrite remove_nth_S. constructor; [exact Hx|now apply IH].
Qed.

Lemma StronglySorted_remove_nth {A : Type} (R : A -> A -> Prop)
      (i : nat) (l : list A) :
  StronglySorted R l -> StronglySorted R (remove_nth i l).
Proof.
  revert i. induction l as [|x l IH]; intros i H.
  - now rewrite remove_nth_nil.
  - inversion H as [|? ? Hl Hx]; subst.
    destruct i as [|i].
    + now rewrite remove_nth_0.
    + rewrite remove_nth_S. constructor; [now apply IH|].
      now apply Forall_remove_nth.
Qed.

Lemma StronglySorted_snoc {A : Type} (R : A -> A -> Prop)
      (l : list A) (x : A) :
  StronglySorted R l -> Forall (fun a => R a x) l ->
  StronglySorted R (l ++ [x]).
Proof.
  induction l as [|y l IH]; intros Hs Hx; simpl.
  - constructor; constructor.
  - inversion Hs as [|? ? Hl Hy]; subst.
    inversion Hx as [|? ? Hyx Hlx]; subst.
    constructor; [now apply IH|].
    apply Forall_app. split; [exact Hy|]. constructor; [exact Hyx|constructor].
Qed.

Lemma invariant_start (fl : Z) : invariant (start fl).
Proof.
  constructor; simpl; try constructor; lia.
Qed.

Lemma invariant_encode (st : State) (size ts : Z) (p : Spec.Pose) :
  invariant st -> invariant (step st (ev_encode size ts p)).
Proof.
  intros [Hfl Hqs Hqb Hsorted Hss Hsq Hinc].
  constructor; simpl.
  - lia.
  - apply Forall_app. split; [exact Hqs|]. now repeat constructor.
  - apply Forall_app. split.
    + eapply Forall_impl; [|exact Hqb]. simpl. intros f Hf. lia.
    + constructor; [simpl; lia|constructor].
  - apply StronglySorted_snoc; [exact Hsorted|].
    eapply Forall_impl; [|exact Hqb]. simpl. intros f Hf. lia.
  - exact Hss.
  - eapply Forall_impl; [|exact Hsq]. simpl.
    intros f Hf Hsid. destruct (Hf Hsid) as [Hb Hq].
    split; [lia|].
    apply Forall_app. split; [exact Hq|].
    constructor; [simpl; lia|constructor].
  - exact Hinc.
Qed.

Lemma invariant_transmit (st : State) :
  invariant st -> invariant (step st ev_transmit).
Proof.
  intros [Hfl Hqs Hqb Hsorted Hss Hsq Hinc].
  simpl. destruct (queue st) as [|f q] eqn:Hq.
  - constructor; try assumption; rewrite Hq; assumption.
  - inversion Hqs as [|? ? Hfs Hqs']; subst.
    inversion Hqb as [|? ? Hfb Hqb']; subst.
    inversion Hsorted as [|? ? Hsorted' Hfq]; subst.
    constructor; simpl; try assumption.
    + constructor; [lia|exact Hss].
    + constructor.
      * intros _. split; [exact Hfb|exact Hfq].
      * eapply Forall_impl; [|exact Hsq]. simpl.
        intros g Hg Hsid. destruct (Hg Hsid) as [Hb Hall].
        split; [exact Hb|]. now inversion Hall.
    + split; [|exact Hinc].
      eapply Forall_impl; [|exact Hsq]. simpl.
      intros g Hg Hsid.
      assert (Hgs : sessionId g = session st) by congruence.
      destruct (Hg Hgs) as [_ Hall]. now inversion Hall.
Qed.

Lemma invariant_drop (st : State) (i : nat) :
  invariant st -> invariant (step st (ev_drop i)).
Proof.
  intros [Hfl Hqs Hqb Hsorted Hss Hsq Hinc].
  constructor; simpl; try assumption.
  - now apply Forall_remove_nth.
  - now apply Forall_remove_nth.
  - now apply StronglySorted_remove_nth.
  - eapply Forall_impl; [|exact Hsq]. simpl.
    intros g Hg Hsid. destruct (Hg Hsid) as [Hb Hall].
    split; [exact Hb|]. now apply Forall_remove_nth.
Qed.

Lemma invariant_renegotiate (st : State) (new_floor : Z) :
  invariant st -> invariant (step st (ev_renegotiate new_floor)).
Proof.
  intros [Hfl Hqs Hqb Hsorted Hss Hsq Hinc].
  constructor; simpl; try constructor; try assumption; try lia.
  - eapply Forall_impl; [|exact Hss]. simpl. intros f Hf. lia.
  - eapply Forall_impl; [|exact Hss]. simpl. intros f Hf Hsid. lia.
Qed.

Lemma invariant_step (st : State) (ev : Event) :
  invariant st -> invariant (step st ev).
Proof.
  destruct ev.
  - apply invariant_encode.
  - apply invariant_transmit.
  - apply invariant_drop.
  - apply invariant_renegotiate.
Qed.

Lemma invariant_fold (evs : list Event) :
  forall st, invariant st -> invariant (fold_left step evs st).
Proof.
  induction evs as [|ev rest IH]; intros st Hst; simpl.
  - exact Hst.
  - apply IH. now apply invariant_step.
Qed.

Lemma invariant_run (fl : Z) (evs : list Event) : invariant (run fl evs).
Proof. apply invariant_fold, invariant_start. Qed.

Lemma increasing_tags_distinct (log : list EncodedFrame) :
  increasing_per_session log -> NoDup (map tag log).
Proof.
  induction log as [|g earlier IH]; simpl.
  - constructor.
  - intros [Hg Hrest]. constructor; [|now apply IH].
    intro Hin. apply in_map_iff in Hin as (f & Htag & Hf).
    rewrite Forall_forall in Hg. specialize (Hg f Hf).
    unfold tag in Htag. injection Htag as Hsid Hseq.
    specialize (Hg Hsid). lia.
Qed.

End FrameSchedulerFacts.

(** C4: whatever the scheduler goes through (frames encoded, sent, timed
    out, sessions renegotiated), the frames it has handed to the network
    carry, within each session, strictly increasing sequence numbers: a
    frame's number is larger than that of every frame of its session sent
    before it, and every frame of the active session carries a number from
    that session's floor upwards.  A renegotiation starts a session with a
    new identifier whose counter restarts at that session's floor, so the
    first frame encoded afterwards carries the floor; frames still queued
    are discarded; and no frame sent so far bears the new session's
    identifier.  Sequence numbers are never reused across sessions, frames
    being told apart by session identifier: no pair of session identifier
    and sequence number is ever sent twice. *)
Theorem sequence_numbers_strictly_increase
        (fl : Z) (evs : list FrameScheduler.Event) :
  let st := FrameScheduler.run fl evs in
  FrameScheduler.increasing_per_session (FrameScheduler.transmitted st) /\
  NoDup (map FrameScheduler.tag (FrameScheduler.transmitted st)) /\
  Forall (fun f => FrameScheduler.sessionId f = FrameScheduler.session st ->
                   FrameScheduler.floor st <= FrameScheduler.sequenceNumber f
                                           < FrameScheduler.nextSequence st)
         (FrameScheduler.transmitted st) /\
  (forall new_floor : Z,
      let st' := FrameScheduler.step st (FrameScheduler.ev_renegotiate new_floor) in
      FrameScheduler.session st' = S (FrameScheduler.session st) /\
      FrameScheduler.nextSequence st' = new_floor /\
      FrameScheduler.queue st' = [] /\
      Forall (fun f => FrameScheduler.sessionId f <> FrameScheduler.session st')
             (FrameScheduler.transmitted st') /\
      (forall size ts p,
          FrameScheduler.transmitted
            (FrameScheduler.step
               (FrameScheduler.step st' (FrameScheduler.ev_encode size ts p))
               FrameScheduler.ev_transmit)
          = FrameScheduler.mk_Frame (FrameScheduler.session st') new_floor size ts p
              :: FrameScheduler.transmitted st)).
Proof.
  cbv zeta.
  pose proof (FrameSchedulerFacts.invariant_run fl evs) as Hinv.
  destruct Hinv as [Hfl Hqs Hqb Hsorted Hss Hsq Hinc].
  split; [exact Hinc|].
  split; [now apply FrameSchedulerFacts.increasing_tags_distinct|].
  split.
  { eapply Forall_impl; [|exact Hsq]. simpl.
    intros f Hf Hsid. exact (proj1 (Hf Hsid)). }
  intro new_floor. simpl.
  repeat split.
  eapply Forall_impl; [|exact Hss]. simpl. intros f Hf. lia.
Qed.

(** ** Further properties of the headers *)

(** X2: a client program that anywhere default-constructs a [Settings]
    ([new Settings()] or [Settings s;]), declares a local copy
    ([Settings s(src);]) or deletes one is rejected as a whole, whatever
    else it does: each of these needs the private constructor or the
    private destructor. *)
Theorem private_members_reject (Load : Settings -> Settings)
        (constructed : Settings) (ops : list client_op) (p : Process) :
  existsb needs_private ops = true ->
  client_run Load constructed p ops = None.
Proof.
  revert p. induction ops as [|op rest IH]; intros p H; simpl in H.
  - discriminate.
  - simpl. destruct (needs_private op) eqn:Hop.
    + unfold client_step. rewrite compiles_cases.
      destruct op; try discriminate; reflexivity.
    + simpl in H.
      destruct (client_step Load constructed p op) as [q|]; [|reflexivity].
      now apply IH.
Qed.

Lemma private_members_reject_witness :
  existsb needs_private
          [call_Instance; new_copy ref_m_Instance; delete_other 0] = true /\
  client_run (fun s => s) Settings_zero fresh_process
             [call_Instance; new_copy ref_m_Instance; delete_other 0] = None.
Proof.
  split; [reflexivity|].
  apply private_members_reject. reflexivity.
Defined.

(** X5: the view size has two types in [bindings.h]: [unsigned int] as the
    [viewWidth] and [viewHeight] members of [StreamConfigInput], [int] as
    the [viewWidth] and [viewHeight] parameters of [prepareLobbyRoom].
    With 32-bit [int], a size fits both exactly when it lies between 0 and
    2147483647; a stream configuration can carry sizes the lobby cannot be
    prepared with, and the lobby's parameters admit negative sizes that no
    stream configuration can carry. *)
Theorem view_size_types_differ :
  lookup_field "viewWidth" StreamConfigInput_fields = Some c_uint /\
  lookup_field "viewHeight" StreamConfigInput_fields = Some c_uint /\
  lookup_field "viewWidth" (fn_params prepareLobbyRoom_decl) = Some c_int /\
  lookup_field "viewHeight" (fn_params prepareLobbyRoom_decl) = Some c_int /\
  (forall v : Z,
      in_range c_uint v /\ in_range c_int v <-> 0 <= v <= 2147483647) /\
  (forall v : Z,
      2147483647 < v <= 4294967295 <-> in_range c_uint v /\ ~ in_range c_int v) /\
  (forall v : Z,
      - 2147483648 <= v < 0 <-> in_range c_int v /\ ~ in_range c_uint v).
Proof.
  repeat split; try reflexivity;
    unfold in_range in *; simpl in *; try lia.
Qed.
